(** * The weather tool of [agent/agent.py]

    A shallow embedding of [get_weather] (agent.py, lines 96-167): the two
    HTTP requests, the values decoded from their JSON bodies, the exceptions
    Python raises while the bodies are taken apart, the [try]/[except] around
    the forecast stage, and the weather-code table.

    Text is kept as UTF-8 byte strings, so the literals below are the ones of
    the source file. *)

From stdpp Require Import gmap strings list fin_maps pretty.

Local Open Scope Z_scope.
Local Set Warnings "-register-all".

(** ** Values decoded by [Response.json()] *)

(** A Python [float] is determined by its [repr] (the shortest decimal that
    reads back to the same double), and [repr] is what [str()] and f-strings
    print, so a float is carried as that text.  A [dict] keeps its items in
    insertion order, which is the order [str()] prints them in; its keys are
    pairwise distinct. *)
Inductive json : Type :=
| JNull
| JBool (b : bool)
| JInt (n : Z)
| JFloat (repr : string)
| JStr (s : string)
| JList (items : list json)
| JDict (items : list (string * json)).

(** [type(v).__name__] *)
Definition type_name (v : json) : string :=
  match v with
  | JNull => "NoneType"
  | JBool _ => "bool"
  | JInt _ => "int"
  | JFloat _ => "float"
  | JStr _ => "str"
  | JList _ => "list"
  | JDict _ => "dict"
  end.

(** [bool(v)], the test behind [not v]. *)
Definition truthy (v : json) : bool :=
  match v with
  | JNull => false
  | JBool b => b
  | JInt n => negb (n =? 0)
  | JFloat r => negb (String.eqb r "0.0" || String.eqb r "-0.0")
  | JStr s => negb (String.eqb s "")
  | JList l => match l with [] => false | _ :: _ => true end
  | JDict d => match d with [] => false | _ :: _ => true end
  end.

(** Item lookup in a [dict] with [str] keys. *)
Fixpoint dict_lookup (k : string) (d : list (string * json)) : option json :=
  match d with
  | [] => None
  | (k', v) :: d' => if String.eqb k k' then Some v else dict_lookup k d'
  end.

(** ** Exceptions *)

(** What [requests.get] raises instead of returning a response; all of them
    are subclasses of [requests.RequestException]. *)
Inductive transport_error : Type :=
| Timeout
| ConnectionError
| OtherRequestError (cls : string).

Inductive type_error : Type :=
| NotSubscriptable   (* v[...] on a value that has no such item access *)
| Unhashable.        (* a list or dict used as a dict key *)

Inductive exn : Type :=
| Transport (t : transport_error)
| HTTPError (status : Z)                (* Response.raise_for_status *)
| JSONDecodeError                       (* Response.json on a body that is not JSON *)
| AttributeError (ty attr : string)     (* '<ty>' object has no attribute '<attr>' *)
| KeyError (key : json)
| IndexError
| TypeError (ty : string) (why : type_error).

(** [isinstance(e, requests.RequestException)].  [requests.exceptions.
    JSONDecodeError] derives from [InvalidJSONError], itself a
    [RequestException]. *)
Definition is_RequestException (e : exn) : bool :=
  match e with
  | Transport _ | HTTPError _ | JSONDecodeError => true
  | _ => false
  end.

(** What the interpreter and the [requests] library print: the text of an
    exception ([str(e)]) and the quoted form of a [str] inside a container
    ([repr(s)]).  Neither is code of this repository. *)
Class Runtime : Type := {
  exn_text : exn -> string;
  repr_text : string -> string
}.

(** ** [str()] as used by the f-strings *)

Fixpoint py_repr `{Runtime} (v : json) : string :=
  match v with
  | JNull => "None"
  | JBool b => if b then "True" else "False"
  | JInt n => pretty n
  | JFloat r => r
  | JStr s => repr_text s
  | JList l => "[" +:+ String.concat ", " (map py_repr l) +:+ "]"
  | JDict d =>
      "{" +:+ String.concat ", "
                (map (fun '(k, x) => repr_text k +:+ ": " +:+ py_repr x) d) +:+ "}"
  end.

Definition py_str `{Runtime} (v : json) : string :=
  match v with
  | JStr s => s
  | _ => py_repr v
  end.

(** ** Responses and the network *)

Record response : Type := {
  status_code : Z;
  body : option json      (* [None]: the body is not a JSON document *)
}.

(** [Response.ok]: [raise_for_status] raises exactly for 400 <= status < 600. *)
Definition ok (r : response) : bool :=
  negb ((400 <=? status_code r) && (status_code r <? 600)).

Inductive http_outcome : Type :=
| Failed (t : transport_error)
| Responded (r : response).

(** The world outside: what a GET of each URL comes back with. *)
Definition network : Type := string -> http_outcome.

(** ** Computations: a log of the URLs requested, and a value or an exception *)

Inductive outcome (A : Type) : Type :=
| Ret (a : A)
| Raise (e : exn).
Arguments Ret {A} a.
Arguments Raise {A} e.

Definition M (A : Type) : Type := list string * outcome A.

Definition ret {A} (a : A) : M A := ([], Ret a).
Definition raise {A} (e : exn) : M A := ([], Raise e).

Definition bind {A B} (m : M A) (k : A -> M B) : M B :=
  match m with
  | (t, Ret a) => let '(t', o) := k a in (t ++ t', o)
  | (t, Raise e) => (t, Raise e)
  end.

(** [try: m  except Exception as e: h e] *)
Definition try_except {A} (m : M A) (h : exn -> M A) : M A :=
  match m with
  | (t, Ret a) => (t, Ret a)
  | (t, Raise e) => let '(t', o) := h e in (t ++ t', o)
  end.

Notation "x <- m ;; k" := (bind m (fun x => k))
  (at level 100, m at next level, right associativity).
Notation "m ;;; k" := (bind m (fun _ => k))
  (at level 100, right associativity).

(** [requests.get(url, timeout=5)] *)
Definition requests_get (net : network) (url : string) : M response :=
  match net url with
  | Failed t => ([url], Raise (Transport t))
  | Responded r => ([url], Ret r)
  end.

(** [resp.raise_for_status()] *)
Definition raise_for_status (r : response) : M unit :=
  if ok r then ret tt else raise (HTTPError (status_code r)).

(** [resp.json()] *)
Definition response_json (r : response) : M json :=
  match body r with
  | Some v => ret v
  | None => raise JSONDecodeError
  end.

(** [v.get(k, default)]; only a [dict] has the method. *)
Definition py_get (v : json) (k : string) (dflt : json) : M json :=
  match v with
  | JDict d => ret (default dflt (dict_lookup k d))
  | _ => raise (AttributeError (type_name v) "get")
  end.

(** [v[k]] for a [str] key [k] *)
Definition getitem_key (v : json) (k : string) : M json :=
  match v with
  | JDict d =>
      match dict_lookup k d with
      | Some x => ret x
      | None => raise (KeyError (JStr k))
      end
  | _ => raise (TypeError (type_name v) NotSubscriptable)
  end.

(** Bytes of the UTF-8 character that starts with byte [a]. *)
Definition utf8_width (a : Ascii.ascii) : nat :=
  let n := Ascii.nat_of_ascii a in
  if (n <? 128)%nat then 1%nat
  else if (n <? 224)%nat then 2%nat
  else if (n <? 240)%nat then 3%nat
  else 4%nat.

(** [v[0]] *)
Definition getitem_0 (v : json) : M json :=
  match v with
  | JList (x :: _) => ret x
  | JList [] => raise IndexError
  | JStr (String a _ as s) => ret (JStr (String.substring 0 (utf8_width a) s))
  | JStr EmptyString => raise IndexError
  | JDict _ => raise (KeyError (JInt 0))
  | _ => raise (TypeError (type_name v) NotSubscriptable)
  end.

(** ** The weather-code table (agent.py, lines 135-153) *)

Definition code_to_weather_items : list (Z * string) :=
  [ (0, "快晴"); (1, "晴れ"); (2, "主に晴れ"); (3, "曇り");
    (4, "薄曇り"); (5, "霞みがかった曇り"); (6, "曇り"); (7, "厚い曇り"); (8, "雨雲"); (9, "曇り（雷雲）");
    (10, "霞"); (11, "薄霧"); (12, "霧"); (13, "雷（雨なし）"); (14, "弱い降水"); (15, "遠方で降水");
    (18, "突風"); (19, "竜巻"); (20, "霧雨（過去1時間）"); (21, "雨（過去1時間）"); (22, "雪（過去1時間）");
    (25, "にわか雨（過去1時間）"); (26, "にわか雪（過去1時間）"); (27, "ひょう（過去1時間）"); (29, "雷雨（過去1時間）");
    (30, "砂嵐"); (31, "砂嵐"); (33, "軽い砂塵"); (34, "砂塵"); (35, "強い砂塵");
    (40, "遠方の霧"); (41, "霧（パッチ状）"); (42, "霧（薄くなる）"); (43, "霧（濃くなる）"); (45, "霧"); (48, "霧氷");
    (50, "弱い霧雨"); (51, "霧雨"); (53, "霧雨"); (55, "霧雨"); (56, "氷霧雨"); (57, "強い氷霧雨");
    (58, "霧雨と雨"); (59, "強い霧雨と雨");
    (60, "弱い雨"); (61, "雨"); (63, "雨"); (65, "雨"); (66, "冷たい雨"); (67, "強い冷たい雨");
    (68, "みぞれ"); (69, "強いみぞれ");
    (70, "弱い雪"); (71, "雪"); (73, "雪"); (75, "雪"); (76, "細かい雪"); (77, "霰");
    (78, "雪結晶"); (79, "凍雨");
    (80, "にわか雨"); (81, "にわか雨"); (82, "にわか雨"); (83, "にわか雨と雪"); (84, "強いにわか雨と雪");
    (85, "にわか雪"); (86, "強いにわか雪"); (87, "にわかみぞれ"); (88, "強いにわかみぞれ"); (89, "にわかひょう");
    (90, "強いにわかひょう"); (91, "弱い雷雨"); (92, "雷雨"); (93, "ひょうを伴う弱い雷雨"); (94, "ひょうを伴う雷雨");
    (95, "雷雨"); (96, "激しい雷雨"); (97, "強い雷雨"); (98, "砂塵を伴う雷雨"); (99, "猛烈な雷雨") ].

Definition code_to_weather : gmap Z string := list_to_map code_to_weather_items.

(** The table key a float compares equal to.  The keys are small
    non-negative integers [k], and the float equal to [k] prints as [k.0]
    (minus zero, which also equals [0], as [-0.0]). *)
Definition float_key (r : string) : option Z :=
  if String.eqb r "-0.0" then Some 0
  else fst <$> List.find (fun kv => String.eqb r (pretty (fst kv) +:+ ".0"))
                         code_to_weather_items.

(** [code_to_weather.get(code, dflt)]: the key is hashed first, which a list
    or a dict refuses; [True] and [False] hash and compare as [1] and [0], a
    float as the integer it equals. *)
Definition code_to_weather_get (code : json) (dflt : string) : M string :=
  match code with
  | JInt n => ret (default dflt (code_to_weather !! n))
  | JBool b => ret (default dflt (code_to_weather !! (if b then 1 else 0)))
  | JFloat r => ret (default dflt (k ← float_key r; code_to_weather !! k))
  | JNull | JStr _ => ret dflt
  | JList _ | JDict _ => raise (TypeError (type_name code) Unhashable)
  end.

(** ** [get_weather] (agent.py, lines 96-167) *)

Definition geo_url (city : string) : string :=
  "https://geocoding-api.open-meteo.com/v1/search?name=" +:+ city.

Definition weather_url `{Runtime} (lat lon : json) : string :=
  "https://api.open-meteo.com/v1/forecast?" +:+
  "latitude=" +:+ py_str lat +:+ "&longitude=" +:+ py_str lon +:+
  "&current_weather=true&timezone=Asia/Tokyo".

Definition not_found_message (city : string) : string :=
  "申し訳ありません、都市名 '" +:+ city +:+ "' が見つかりませんでした。".

Definition request_failed_message (cause : string) : string :=
  "Open-Meteoへのリクエストに失敗しました: " +:+ cause.

Definition retrieval_failed_message (cause : string) : string :=
  "天気情報の取得に失敗しました: " +:+ cause.

Definition fallback_description `{Runtime} (code : json) : string :=
  "不明（コード" +:+ py_str code +:+ "）".

Definition weather_report `{Runtime} (desc : string) (temp : json) : string :=
  "現在の天気は「" +:+ desc +:+ "」で、気温は摂氏" +:+ py_str temp +:+ "度です。".

Definition error_result (msg : string) : gmap string string :=
  {[ "status" := "error"; "error_message" := msg ]}.

Definition success_result (report : string) : gmap string string :=
  {[ "status" := "success"; "report" := report ]}.

(** The body of the [try] block, lines 127-156. *)
Definition try_body `{Runtime} (net : network) (weather_url : string)
  : M (gmap string string) :=
  resp <- requests_get net weather_url ;;
  raise_for_status resp ;;;
  data <- response_json resp ;;
  current <- py_get data "current_weather" (JDict []) ;;
  temp <- py_get current "temperature" JNull ;;
  code <- py_get current "weathercode" JNull ;;
  desc <- code_to_weather_get code (fallback_description code) ;;
  let report := weather_report desc temp in
  ret (success_result report).

(** The two [except] clauses, lines 158-167, tried in order. *)
Definition except_clauses `{Runtime} (e : exn) : M (gmap string string) :=
  if is_RequestException e
  then ret (error_result (request_failed_message (exn_text e)))
  else ret (error_result (retrieval_failed_message (exn_text e))).

Definition get_weather `{Runtime} (net : network) (city : string)
  : M (gmap string string) :=
  res <- requests_get net (geo_url city) ;;
  not_found <-
    (if negb (ok res) then ret true
     else j <- response_json res ;;
          results <- py_get j "results" JNull ;;
          ret (negb (truthy results))) ;;
  if (not_found : bool) then ret (error_result (not_found_message city))
  else
    j <- response_json res ;;
    results <- getitem_key j "results" ;;
    loc <- getitem_0 results ;;
    lat <- getitem_key loc "latitude" ;;
    lon <- getitem_key loc "longitude" ;;
    try_except (try_body net (weather_url lat lon)) except_clauses.

(** ** Vocabulary of the statements *)

(** [sub] occurs in [s]. *)
Definition contains (sub s : string) : Prop :=
  exists pre post, s = pre +:+ sub +:+ post.

(** A request to the forecast service. *)
Definition is_forecast_request (url : string) : bool :=
  String.prefix "https://api.open-meteo.com/v1/forecast?" url.

(** The geocoding service answers [city] with a success status and a JSON
    object whose [results] list starts with an object carrying [lat] and
    [lon]; [rest] are the candidates after the first. *)
Definition geocoded (net : network) (city : string)
    (lat lon : json) (rest : list json) : Prop :=
  exists r d loc,
    net (geo_url city) = Responded r /\
    ok r = true /\
    body r = Some (JDict d) /\
    dict_lookup "results" d = Some (JList (JDict loc :: rest)) /\
    dict_lookup "latitude" loc = Some lat /\
    dict_lookup "longitude" loc = Some lon.

(** The forecast service answers [url] with a success status and the JSON
    document [data]. *)
Definition forecast_payload (net : network) (url : string) (data : json) : Prop :=
  exists r, net url = Responded r /\ ok r = true /\ body r = Some data.

(** The forecast request for [url] fails in transport: [requests.get] raises,
    or the status makes [raise_for_status] raise.  [e] is the exception. *)
Definition forecast_transport_failure (net : network) (url : string) (e : exn) : Prop :=
  (exists t, net url = Failed t /\ e = Transport t) \/
  (exists r, net url = Responded r /\ ok r = false /\ e = HTTPError (status_code r)).

(** A forecast document that the [try] block cannot take apart: it is not an
    object, or its [current_weather] is there and is not an object, or the
    weather code is a list or an object. *)
Definition uninterpretable (data : json) : bool :=
  match data with
  | JDict d =>
      match default (JDict []) (dict_lookup "current_weather" d) with
      | JDict c =>
          match default JNull (dict_lookup "weathercode" c) with
          | JList _ | JDict _ => true
          | _ => false
          end
      | _ => true
      end
  | _ => true
  end.

(** The shape of a result: [status] is one of the two discriminators, and
    it decides which of [report] and [error_message] is there. *)
Definition well_shaped (d : gmap string string) : Prop :=
  (d !! "status" = Some "success" \/ d !! "status" = Some "error") /\
  (is_Some (d !! "report") <-> d !! "status" = Some "success") /\
  (is_Some (d !! "error_message") <-> d !! "status" = Some "error") /\
  (is_Some (d !! "report") <-> d !! "error_message" = None).

(** The geocoding service answers [city] with a non-success status, or with
    a JSON object whose [results] is missing or is falsy ([None], [False],
    [0], [0.0], the empty string, list or object). *)
Definition geocoding_missed (net : network) (city : string) : Prop :=
  exists r,
    net (geo_url city) = Responded r /\
    (ok r = false \/
     exists d, body r = Some (JDict d) /\
               truthy (default JNull (dict_lookup "results" d)) = false).

(** The exceptions raised while a geocoding answer is taken apart: the body
    is not JSON, the document has no [get], an item is not there or the value
    cannot be subscripted. *)
Definition data_exception (e : exn) : bool :=
  match e with
  | JSONDecodeError | KeyError _ | TypeError _ NotSubscriptable => true
  | AttributeError _ attr => String.eqb attr "get"
  | Transport _ | HTTPError _ | IndexError | TypeError _ Unhashable => false
  end.

(** ** URL encoding, as the specification words it *)

(** Bytes that stand for themselves in a URL component (RFC 3986,
    "unreserved"): ASCII letters, digits, and [-], [.], [_], [~]. *)
Definition unreserved (a : Ascii.ascii) : bool :=
  let n := Ascii.nat_of_ascii a in
  ((65 <=? n) && (n <=? 90) || (97 <=? n) && (n <=? 122) ||
   (48 <=? n) && (n <=? 57) ||
   (n =? 45) || (n =? 46) || (n =? 95) || (n =? 126))%nat.

Definition hex_digit (n : nat) : Ascii.ascii :=
  Ascii.ascii_of_nat (if (n <? 10)%nat then 48 + n else 55 + n)%nat.

(** [%XX] for every byte that is not unreserved. *)
Fixpoint percent_encode (s : string) : string :=
  match s with
  | EmptyString => EmptyString
  | String a s' =>
      if unreserved a then String a (percent_encode s')
      else
        let n := Ascii.nat_of_ascii a in
        String (Ascii.ascii_of_nat 37 (* % *)) (String (hex_digit (n / 16)) (String (hex_digit (n mod 16))
          (percent_encode s')))
  end.


(** Every byte of [s] is unreserved. *)
Fixpoint all_unreserved (s : string) : bool :=
  match s with
  | EmptyString => true
  | String a s' => unreserved a && all_unreserved s'
  end.

(** ** What [requests] does to the URL it is given *)

(** [requests.get] does not send its argument as it stands:
    [PreparedRequest.prepare_url] takes it apart with urllib3's [parse_url],
    which percent-encodes the bytes a query may not hold, and puts it
    through [requote_uri]; the part after [#] is no part of what is sent.
    The scheme, host and path of the geocoding URL are constants that the
    preparation leaves as they are, so only the query is followed here.
    (requests 2.32, urllib3 1.26 and 2.x.) *)

Fixpoint byte_in (a : Ascii.ascii) (set : string) : bool :=
  match set with
  | EmptyString => false
  | String b set' => Ascii.eqb a b || byte_in a set'
  end.

(** urllib3's [SUB_DELIM_CHARS] and [QUERY_CHARS]. *)
Definition sub_delim (a : Ascii.ascii) : bool := byte_in a "!$&'()*+,;=".

Definition query_char (a : Ascii.ascii) : bool :=
  unreserved a || sub_delim a || byte_in a ":@/?".

Definition is_percent (a : Ascii.ascii) : bool :=
  (Ascii.nat_of_ascii a =? 37)%nat.

(** The value of a hexadecimal digit. *)
Definition hex_value (a : Ascii.ascii) : option nat :=
  let n := Ascii.nat_of_ascii a in
  if ((48 <=? n) && (n <=? 57))%nat then Some (n - 48)%nat
  else if ((65 <=? n) && (n <=? 70))%nat then Some (n - 55)%nat
  else if ((97 <=? n) && (n <=? 102))%nat then Some (n - 87)%nat
  else None.

Definition is_hex (a : Ascii.ascii) : bool :=
  match hex_value a with Some _ => true | None => false end.

(** [str.upper] on one ASCII byte. *)
Definition upper (a : Ascii.ascii) : Ascii.ascii :=
  let n := Ascii.nat_of_ascii a in
  if ((97 <=? n) && (n <=? 122))%nat then Ascii.ascii_of_nat (n - 32) else a.

(** [%XX] for the byte [a]. *)
Definition escape (a : Ascii.ascii) (rest : string) : string :=
  let n := Ascii.nat_of_ascii a in
  String (Ascii.ascii_of_nat 37)
    (String (hex_digit (n / 16)) (String (hex_digit (n mod 16)) rest)).

(** The query of a URL: what follows the first [?] up to the first [#]. *)
Fixpoint before_hash (s : string) : string :=
  match s with
  | EmptyString => EmptyString
  | String a s' =>
      if (Ascii.nat_of_ascii a =? 35)%nat then EmptyString
      else String a (before_hash s')
  end.

(** [PERCENT_RE.subn(upper)]: the digits of every [%XX] are put in upper
    case; the flag says whether every [%] starts such an escape. *)
Fixpoint normalize_escapes (s : string) : string * bool :=
  match s with
  | EmptyString => (EmptyString, true)
  | String a s' =>
      if is_percent a then
        match s' with
        | String h1 (String h2 s'') =>
            if is_hex h1 && is_hex h2
            then let '(r, all) := normalize_escapes s'' in
                 (String a (String (upper h1) (String (upper h2) r)), all)
            else let '(r, _) := normalize_escapes s' in (String a r, false)
        | _ => let '(r, _) := normalize_escapes s' in (String a r, false)
        end
      else let '(r, all) := normalize_escapes s' in (String a r, all)
  end.

(** The loop of urllib3's [_encode_invalid_chars] for a query. *)
Fixpoint encode_bytes (keep_percent : bool) (s : string) : string :=
  match s with
  | EmptyString => EmptyString
  | String a s' =>
      if (keep_percent && is_percent a) || query_char a
      then String a (encode_bytes keep_percent s')
      else escape a (encode_bytes keep_percent s')
  end.

Definition encode_invalid_chars (query : string) : string :=
  let '(normal, all) := normalize_escapes query in encode_bytes all normal.

Definition ascii_alnum (a : Ascii.ascii) : bool :=
  let n := Ascii.nat_of_ascii a in
  ((48 <=? n) && (n <=? 57) || (65 <=? n) && (n <=? 90) ||
   (97 <=? n) && (n <=? 122))%nat.

(** [requests.utils.unquote_unreserved]: an escape of an unreserved byte is
    replaced by the byte; [None] stands for [InvalidURL], raised at a [%]
    followed by two letters or digits that are not hexadecimal. *)
Fixpoint unquote_unreserved (s : string) : option string :=
  match s with
  | EmptyString => Some EmptyString
  | String a s' =>
      if is_percent a then
        match s' with
        | String h1 (String h2 s'') =>
            if ascii_alnum h1 && ascii_alnum h2 then
              match hex_value h1, hex_value h2 with
              | Some v1, Some v2 =>
                  let c := Ascii.ascii_of_nat (16 * v1 + v2) in
                  if unreserved c
                  then String c <$> unquote_unreserved s''
                  else String a <$> unquote_unreserved s'
              | _, _ => None
              end
            else String a <$> unquote_unreserved s'
        | _ => String a <$> unquote_unreserved s'
        end
      else String a <$> unquote_unreserved s'
  end.

(** [urllib.parse.quote(s, safe)] on bytes. *)
Fixpoint quote (safe : string) (s : string) : string :=
  match s with
  | EmptyString => EmptyString
  | String a s' =>
      if unreserved a || byte_in a safe then String a (quote safe s')
      else escape a (quote safe s')
  end.

(** [requests.utils.requote_uri] *)
Definition requote_uri (uri : string) : string :=
  match unquote_unreserved uri with
  | Some u => quote "!#$%&'()*+,/:;=?@[]~" u
  | None => quote "!#$&'()*+,/:;=?@[]~" uri
  end.

(** The query that is sent for a URL whose text after the first [?] is
    [query]. *)
Definition prepared_query (query : string) : string :=
  requote_uri (encode_invalid_chars (before_hash query)).

(** The URL that is sent when [requests.get] is given [url]: what comes
    before the first [?] as it is, then the prepared query. *)
Fixpoint prepare_url (url : string) : string :=
  match url with
  | EmptyString => EmptyString
  | String a url' =>
      if (Ascii.nat_of_ascii a =? 63)%nat then String a (prepared_query url')
      else String a (prepare_url url')
  end.



(** ** A runtime to evaluate examples with: CPython's wording of the
    exceptions, and single quotes around a [str]. *)
Definition sample_runtime : Runtime := {|
  exn_text e :=
    match e with
    | Transport Timeout => "Read timed out."
    | Transport ConnectionError => "Connection refused"
    | Transport (OtherRequestError cls) => cls
    | HTTPError status => pretty status +:+ " Error"
    | JSONDecodeError => "Expecting value: line 1 column 1 (char 0)"
    | AttributeError ty attr =>
        "'" +:+ ty +:+ "' object has no attribute '" +:+ attr +:+ "'"
    | KeyError (JStr k) => "'" +:+ k +:+ "'"
    | KeyError _ => "0"
    | IndexError => "list index out of range"
    | TypeError ty NotSubscriptable => "'" +:+ ty +:+ "' object is not subscriptable"
    | TypeError ty Unhashable => "unhashable type: '" +:+ ty +:+ "'"
    end;
  repr_text s := "'" +:+ s +:+ "'"
|}.

(** Sample upstream answers. *)
Definition json_response (v : json) : response :=
  {| status_code := 200; body := Some v |}.

Definition tokyo_geocoding : json :=
  JDict [("results",
          JList [JDict [("name", JStr "Tokyo");
                        ("latitude", JFloat "35.68");
                        ("longitude", JFloat "139.69")]])].

Definition springfield_geocoding : json :=
  JDict [("results",
          JList [JDict [("latitude", JFloat "39.8"); ("longitude", JFloat "-89.64")];
                 JDict [("latitude", JFloat "37.22"); ("longitude", JFloat "-93.3")]])].

(** A network where the geocoding service answers with [geocoding] and the
    forecast service with [forecast]. *)
Definition sample_network (geocoding : json) (forecast : http_outcome) : network :=
  fun url =>
    if String.prefix "https://geocoding-api.open-meteo.com/" url
    then Responded (json_response geocoding)
    else forecast.

Definition tokyo_network : http_outcome -> network :=
  sample_network tokyo_geocoding.

Definition current_weather (temp code : json) : json :=
  JDict [("current_weather", JDict [("temperature", temp); ("weathercode", code)])].

(** [tokyo_network], except that one unrelated URL times out. *)
Definition detour_network (forecast : http_outcome) : network :=
  fun url =>
    if String.eqb url "https://example.com/" then Failed Timeout
    else tokyo_network forecast url.

(** * Properties *)

Section properties.
Context {rt : Runtime}.
Implicit Types (net : network) (city url : string).

(* Keep the table and the texts folded while the control flow is unfolded. *)
Arguments code_to_weather : simpl never.
Arguments float_key : simpl never.
Arguments weather_report : simpl never.
Arguments fallback_description : simpl never.
Arguments weather_url : simpl never.
Arguments geo_url : simpl never.
Arguments error_result : simpl never.
Arguments success_result : simpl never.
Arguments not_found_message : simpl never.
Arguments request_failed_message : simpl never.
Arguments retrieval_failed_message : simpl never.

(** ** Results *)

Lemma append_assoc (a b c : string) : (a +:+ b) +:+ c = a +:+ b +:+ c.
Proof.
  induction a as [|x a IH]; [done|].
  change (String x ((a +:+ b) +:+ c) = String x (a +:+ b +:+ c)).
  by f_equal.
Qed.

Lemma contains_mid (pre sub post : string) : contains sub (pre +:+ sub +:+ post).
Proof. by exists pre, post. Qed.

Lemma report_contains_description desc temp :
  contains desc (weather_report desc temp).
Proof. apply contains_mid. Qed.

Lemma report_contains_temperature desc temp :
  contains (py_str temp) (weather_report desc temp).
Proof.
  exists ("現在の天気は「" +:+ desc +:+ "」で、気温は摂氏"), "度です。".
  unfold weather_report. by rewrite !append_assoc.
Qed.

Lemma percent_encode_unreserved (s : string) :
  all_unreserved s = true -> percent_encode s = s.
Proof.
  induction s as [|a s IH]; simpl; [done|].
  destruct (unreserved a); simpl; [|done].
  intros Hs. by rewrite (IH Hs).
Qed.

(** The three messages start differently, so none can be taken for another. *)
Lemma messages_distinct cause cause' city :
  request_failed_message cause <> retrieval_failed_message cause' /\
  request_failed_message cause <> not_found_message city /\
  retrieval_failed_message cause' <> not_found_message city.
Proof.
  unfold request_failed_message, retrieval_failed_message, not_found_message.
  repeat split; simpl; discriminate.
Qed.

Lemma error_result_lookup msg :
  error_result msg !! "status" = Some "error" /\
  error_result msg !! "error_message" = Some msg /\
  error_result msg !! "report" = None.
Proof. by repeat split. Qed.

Lemma success_result_lookup rep :
  success_result rep !! "status" = Some "success" /\
  success_result rep !! "report" = Some rep /\
  success_result rep !! "error_message" = None.
Proof. by repeat split. Qed.

Lemma error_result_well_shaped msg : well_shaped (error_result msg).
Proof.
  destruct (error_result_lookup msg) as (Hs & Hm & Hr).
  unfold well_shaped. rewrite Hs, Hm, Hr. repeat split; try by eauto.
  all: try (intros [? ?]; discriminate); try discriminate.
Qed.

Lemma success_result_well_shaped rep : well_shaped (success_result rep).
Proof.
  destruct (success_result_lookup rep) as (Hs & Hr & Hm).
  unfold well_shaped. rewrite Hs, Hm, Hr. repeat split; try by eauto.
  all: try (intros [? ?]; discriminate); try discriminate.
Qed.

(** The keys of the table literal are pairwise distinct, so the map holds
    every entry as it is written. *)
Lemma code_to_weather_entry (k : Z) (v : string) :
  (k, v) ∈ code_to_weather_items -> code_to_weather !! k = Some v.
Proof.
  apply elem_of_list_to_map_1.
  apply (bool_decide_unpack _). by vm_compute.
Qed.

(** ** The forecast stage: the [try] block under its [except] clauses *)

(* From here on results are compared by name, not by their map structure. *)
Local Opaque error_result success_result code_to_weather float_key.

Lemma try_body_transport net url e :
  forecast_transport_failure net url e ->
  try_body net url = ([url], Raise e).
Proof.
  unfold try_body, requests_get.
  intros [(t & -> & ->) | (r & -> & Hok & ->)]; [done|].
  simpl. unfold raise_for_status. by rewrite Hok.
Qed.

(** With a JSON object in hand whose [current_weather] is an object (or
    is missing, which [get] turns into the empty object), the block ends
    the way the table lookup does. *)
Lemma try_body_payload net url d c o :
  forecast_payload net url (JDict d) ->
  default (JDict []) (dict_lookup "current_weather" d) = JDict c ->
  let temp := default JNull (dict_lookup "temperature" c) in
  let code := default JNull (dict_lookup "weathercode" c) in
  code_to_weather_get code (fallback_description code) = ([], o) ->
  try_body net url =
    ([url], match o with
            | Ret desc => Ret (success_result (weather_report desc temp))
            | Raise e => Raise e
            end).
Proof.
  intros (r & Hnet & Hok & Hbody) Hcur temp code Hget.
  unfold try_body, requests_get, raise_for_status, response_json.
  rewrite Hnet. simpl. rewrite Hok. simpl. rewrite Hbody. simpl.
  rewrite Hcur. simpl. fold temp code. rewrite Hget.
  by destruct o.
Qed.

Lemma forecast_stage_returns net url :
  exists d,
    try_except (try_body net url) except_clauses = ([url], Ret d) /\
    ((exists msg, d = error_result msg) \/ (exists rep, d = success_result rep)).
Proof.
  unfold try_body, requests_get, raise_for_status, response_json, except_clauses.
  destruct (net url) as [t | r]; simpl; [eauto|].
  destruct (ok r); simpl; [|eauto].
  destruct (body r) as [data|]; simpl; [|eauto].
  destruct data as [| | | | | |d]; simpl; eauto.
  destruct (default (JDict []) (dict_lookup "current_weather" d))
    as [| | | | | |c]; simpl; eauto.
  destruct (default JNull (dict_lookup "weathercode" c)); simpl; eauto.
Qed.

Lemma forecast_stage_payload net url data :
  forecast_payload net url data ->
  (uninterpretable data = true ->
   exists e, is_RequestException e = false /\
     try_except (try_body net url) except_clauses =
       ([url], Ret (error_result (retrieval_failed_message (exn_text e))))) /\
  (uninterpretable data = false ->
   exists rep,
     try_except (try_body net url) except_clauses = ([url], Ret (success_result rep))).
Proof.
  intros (r & Hnet & Hok & Hbody).
  unfold try_body, requests_get, raise_for_status, response_json, except_clauses.
  rewrite Hnet. simpl. rewrite Hok. simpl. rewrite Hbody. simpl.
  unfold uninterpretable.
  destruct data as [| | | | | |d]; simpl;
    try (split; [intros _; eexists; split; [|reflexivity]; reflexivity | discriminate]).
  destruct (default (JDict []) (dict_lookup "current_weather" d))
    as [| | | | | |c]; simpl;
    try (split; [intros _; eexists; split; [|reflexivity]; reflexivity | discriminate]).
  destruct (default JNull (dict_lookup "weathercode" c)); simpl;
    try (split; [intros _; eexists; split; [|reflexivity]; reflexivity | discriminate]);
    (split; [discriminate | intros _; eexists; reflexivity]).
Qed.

(** ** The geocoding stage *)

Lemma get_weather_not_found net city r :
  net (geo_url city) = Responded r ->
  (ok r = false \/
   exists d, body r = Some (JDict d) /\
             truthy (default JNull (dict_lookup "results" d)) = false) ->
  get_weather net city = ([geo_url city], Ret (error_result (not_found_message city))).
Proof.
  intros Hnet Hr. unfold get_weather, requests_get. rewrite Hnet. simpl.
  destruct Hr as [Hok | (d & Hbody & Hres)].
  - by rewrite Hok.
  - destruct (ok r); simpl; [|done].
    unfold response_json. rewrite Hbody. simpl. by rewrite Hres.
Qed.

Lemma get_weather_geocoded net city lat lon rest o :
  geocoded net city lat lon rest ->
  try_except (try_body net (weather_url lat lon)) except_clauses =
    ([weather_url lat lon], o) ->
  get_weather net city = ([geo_url city; weather_url lat lon], o).
Proof.
  intros (r & d & loc & Hnet & Hok & Hbody & Hres & Hlat & Hlon) Hstage.
  unfold get_weather, requests_get, response_json.
  rewrite Hnet. simpl. rewrite Hok. simpl. rewrite Hbody. simpl.
  rewrite Hres. simpl. rewrite Hlat. simpl. rewrite Hlon. simpl.
  by rewrite Hstage.
Qed.

(** Every run of [get_weather] ends in one of three ways: an exception of the
    geocoding stage leaves the function, or the city is reported as not
    found, or the forecast stage is entered and a result comes back. *)
Lemma get_weather_cases net city :
  (exists e, get_weather net city = ([geo_url city], Raise e)) \/
  get_weather net city = ([geo_url city], Ret (error_result (not_found_message city))) \/
  (exists lat lon res,
     get_weather net city = ([geo_url city; weather_url lat lon], Ret res) /\
     ((exists msg, res = error_result msg) \/ (exists rep, res = success_result rep))).
Proof.
  unfold get_weather, requests_get, response_json.
  destruct (net (geo_url city)) as [t|r]; simpl; [by eauto|].
  destruct (ok r); simpl; [|by eauto].
  destruct (body r) as [j|]; simpl; [|by eauto].
  destruct j as [| | | | | |d]; simpl; try (by eauto).
  destruct (dict_lookup "results" d) as [v|]; simpl; [|by eauto].
  destruct (truthy v); simpl; [|by eauto].
  destruct v as [| | | |[|a s]|[|loc rest]|]; simpl; try (by eauto).
  destruct loc as [| | | | | |l]; simpl; try (by eauto).
  destruct (dict_lookup "latitude" l) as [lat|]; simpl; [|by eauto].
  destruct (dict_lookup "longitude" l) as [lon|]; simpl; [|by eauto].
  destruct (forecast_stage_returns net (weather_url lat lon)) as (res & -> & Hres).
  right; right. by exists lat, lon, res.
Qed.

Lemma get_weather_report net city lat lon rest d c n :
  geocoded net city lat lon rest ->
  forecast_payload net (weather_url lat lon) (JDict d) ->
  dict_lookup "current_weather" d = Some (JDict c) ->
  dict_lookup "weathercode" c = Some (JInt n) ->
  get_weather net city =
    ([geo_url city; weather_url lat lon],
     Ret (success_result
            (weather_report
               (default (fallback_description (JInt n)) (code_to_weather !! n))
               (default JNull (dict_lookup "temperature" c))))).
Proof.
  intros Hgeo Hfc Hcur Hcode.
  apply (get_weather_geocoded _ _ _ _ _ _ Hgeo).
  rewrite (try_body_payload _ _ d c
             (Ret (default (fallback_description (JInt n)) (code_to_weather !! n))) Hfc).
  - done.
  - by rewrite Hcur.
  - by rewrite Hcode.
Qed.

(** ** The query as [requests] prepares it *)















(** ** The claims *)

(** C1.  When the geocoding request comes back with a non-success status, or
    with an object whose [results] is missing or is the empty list,
    [get_weather] returns a result whose [status] is [error], whose
    [error_message] contains the city as given, and which has no [report];
    the geocoding request is the only one made, so nothing is asked of the
    forecast service. *)
Theorem geocoding_miss_is_terminal net city r :
  net (geo_url city) = Responded r ->
  (ok r = false \/
   exists d, body r = Some (JDict d) /\
     (dict_lookup "results" d = None \/
      dict_lookup "results" d = Some (JList []))) ->
  exists trace res msg,
    get_weather net city = (trace, Ret res) /\
    res !! "status" = Some "error" /\
    res !! "error_message" = Some msg /\
    contains city msg /\
    res !! "report" = None /\
    trace = [geo_url city] /\
    Forall (fun url => is_forecast_request url = false) trace.
Proof.
  intros Hnet Hmiss.
  exists [geo_url city], (error_result (not_found_message city)),
    (not_found_message city).
  destruct (error_result_lookup (not_found_message city)) as (Hs & Hm & Hr).
  repeat split; try done.
  - apply (get_weather_not_found _ _ r Hnet).
    destruct Hmiss as [Hok | (d & Hbody & [Hnone | Hempty])]; [by left | |];
      right; exists d; split; try done.
    + by rewrite Hnone.
    + by rewrite Hempty.
  - apply contains_mid.
  - by repeat constructor.
Qed.

(** C2, where the code falls short of it.  The geocoding stage stands outside
    the [try] block: a timeout of the geocoding request leaves [get_weather]
    as an exception, and so does a first candidate without [latitude]. *)
Theorem geocoding_failures_escape :
  get_weather (fun _ => Failed Timeout) "tokyo" =
    ([geo_url "tokyo"], Raise (Transport Timeout)) /\
  get_weather
    (fun _ => Responded (json_response (JDict [("results", JList [JDict []])])))
    "tokyo" =
    ([geo_url "tokyo"], Raise (KeyError (JStr "latitude"))).
Proof. split; reflexivity. Qed.



(** C5.  With the coordinates resolved, a forecast request that fails in
    transport (the request raises, or the status is not a success one)
    gives a result whose [status] is [error] and whose [error_message] is the
    request-failure text of line 161 followed by the text of the exception;
    that message never equals a catch-all message, nor a not-found one. *)
Theorem forecast_transport_failure_message net city lat lon rest e :
  geocoded net city lat lon rest ->
  forecast_transport_failure net (weather_url lat lon) e ->
  exists res,
    get_weather net city = ([geo_url city; weather_url lat lon], Ret res) /\
    res !! "status" = Some "error" /\
    res !! "error_message" =
      Some ("Open-Meteoへのリクエストに失敗しました: " +:+ exn_text e) /\
    res !! "report" = None /\
    (forall cause,
       "Open-Meteoへのリクエストに失敗しました: " +:+ exn_text e <>
       "天気情報の取得に失敗しました: " +:+ cause) /\
    (forall c,
       "Open-Meteoへのリクエストに失敗しました: " +:+ exn_text e <>
       "申し訳ありません、都市名 '" +:+ c +:+ "' が見つかりませんでした。").
Proof.
  intros Hgeo Hfail.
  exists (error_result (request_failed_message (exn_text e))).
  destruct (error_result_lookup (request_failed_message (exn_text e)))
    as (Hs & Hm & Hr).
  split; [|split; [done|split; [done|split; [done|split]]]].
  - apply (get_weather_geocoded _ _ _ _ _ _ Hgeo).
    rewrite (try_body_transport _ _ _ Hfail). simpl.
    unfold except_clauses.
    by destruct Hfail as [(t & _ & ->) | (r & _ & _ & ->)].
  - intros cause. apply (messages_distinct (exn_text e) cause "").
  - intros c. apply (messages_distinct (exn_text e) "" c).
Qed.

(** C6.  Whatever follows the first candidate in [results], the forecast
    request is made for the latitude and longitude of the first candidate. *)
Theorem first_candidate_coordinates net city lat lon rest :
  geocoded net city lat lon rest ->
  fst (get_weather net city) = [geo_url city; weather_url lat lon].
Proof.
  intros Hgeo.
  destruct (forecast_stage_returns net (weather_url lat lon)) as (res & Hst & _).
  by rewrite (get_weather_geocoded _ _ _ _ _ _ Hgeo Hst).
Qed.

(** C7.  Codes 0 and 95 have the clear-sky and the thunderstorm entries, and
    for every code that is a key of the table the report is built around
    exactly the entry of that code. *)
Theorem table_code_description :
  code_to_weather !! 0 = Some "快晴" /\
  code_to_weather !! 95 = Some "雷雨" /\
  forall net city lat lon rest d c n desc,
    geocoded net city lat lon rest ->
    forecast_payload net (weather_url lat lon) (JDict d) ->
    dict_lookup "current_weather" d = Some (JDict c) ->
    dict_lookup "weathercode" c = Some (JInt n) ->
    code_to_weather !! n = Some desc ->
    exists res,
      get_weather net city = ([geo_url city; weather_url lat lon], Ret res) /\
      res !! "status" = Some "success" /\
      res !! "report" =
        Some ("現在の天気は「" +:+ desc +:+ "」で、気温は摂氏" +:+
              py_str (default JNull (dict_lookup "temperature" c)) +:+ "度です。").
Proof.
  split; [by vm_compute|]. split; [by vm_compute|].
  intros net city lat lon rest d c n desc Hgeo Hfc Hcur Hcode Hentry.
  eexists. split.
  - rewrite (get_weather_report _ _ _ _ _ _ _ _ Hgeo Hfc Hcur Hcode).
    rewrite Hentry. reflexivity.
  - split; apply success_result_lookup.
Qed.

(** C8.  For an integer code that is not a key of the table the result is
    still a success, and the description in its report is the fallback text
    around the decimal digits of the code. *)
Theorem unknown_code_falls_back net city lat lon rest d c n :
  geocoded net city lat lon rest ->
  forecast_payload net (weather_url lat lon) (JDict d) ->
  dict_lookup "current_weather" d = Some (JDict c) ->
  dict_lookup "weathercode" c = Some (JInt n) ->
  code_to_weather !! n = None ->
  exists res,
    get_weather net city = ([geo_url city; weather_url lat lon], Ret res) /\
    res !! "status" = Some "success" /\
    res !! "error_message" = None /\
    res !! "report" =
      Some (weather_report ("不明（コード" +:+ pretty n +:+ "）")
              (default JNull (dict_lookup "temperature" c))).
Proof.
  intros Hgeo Hfc Hcur Hcode Hentry.
  eexists. split.
  - rewrite (get_weather_report _ _ _ _ _ _ _ _ Hgeo Hfc Hcur Hcode).
    rewrite Hentry. reflexivity.
  - repeat split; apply success_result_lookup.
Qed.

(** C9.  With a successful geocoding answer and a forecast document that has
    a [current_weather] object with a [temperature] and an integer
    [weathercode], the result is a success whose report contains the
    description of the code and the temperature as printed. *)
Theorem success_report_contents net city lat lon rest d c temp n :
  geocoded net city lat lon rest ->
  forecast_payload net (weather_url lat lon) (JDict d) ->
  dict_lookup "current_weather" d = Some (JDict c) ->
  dict_lookup "temperature" c = Some temp ->
  dict_lookup "weathercode" c = Some (JInt n) ->
  exists res report,
    get_weather net city = ([geo_url city; weather_url lat lon], Ret res) /\
    res !! "status" = Some "success" /\
    res !! "report" = Some report /\
    contains (default (fallback_description (JInt n)) (code_to_weather !! n)) report /\
    contains (py_str temp) report.
Proof.
  intros Hgeo Hfc Hcur Htemp Hcode.
  eexists _, _. split.
  - rewrite (get_weather_report _ _ _ _ _ _ _ _ Hgeo Hfc Hcur Hcode).
    rewrite Htemp. reflexivity.
  - repeat split; try apply success_result_lookup.
    + apply report_contains_description.
    + apply report_contains_temperature.
Qed.

(** C10.  A result returned by [get_weather] has [status] equal to [success]
    or to [error]; it has a [report] exactly when the status is [success], an
    [error_message] exactly when the status is [error], and never both or
    neither. *)
Theorem result_is_well_shaped net city trace res :
  get_weather net city = (trace, Ret res) ->
  well_shaped res.
Proof.
  intros Hrun.
  destruct (get_weather_cases net city)
    as [(e & He) | [Hnf | (lat & lon & res' & Hres & Hshape)]].
  - rewrite He in Hrun. discriminate.
  - rewrite Hnf in Hrun. injection Hrun as _ <-. apply error_result_well_shaped.
  - rewrite Hres in Hrun. injection Hrun as _ <-.
    destruct Hshape as [(msg & ->) | (rep & ->)];
      [apply error_result_well_shaped | apply success_result_well_shaped].
Qed.

End properties.


(** * The claims at concrete inputs *)

Transparent error_result success_result code_to_weather float_key.

Lemma tokyo_geocoded (fc : http_outcome) :
  geocoded (tokyo_network fc) "tokyo" (JFloat "35.68") (JFloat "139.69") [].
Proof. do 3 eexists. repeat split; reflexivity. Defined.

Lemma tokyo_forecast_payload (data : json) :
  forecast_payload (tokyo_network (Responded (json_response data)))
    (@weather_url sample_runtime (JFloat "35.68") (JFloat "139.69")) data.
Proof. eexists. repeat split; reflexivity. Defined.

Lemma geocoding_miss_is_terminal_witness :
  exists trace res msg,
    @get_weather sample_runtime
      (fun _ => Responded (json_response (JDict [("results", JList [])])))
      "doesnotexist123" = (trace, Ret res) /\
    res !! "status" = Some "error" /\
    res !! "error_message" = Some msg /\
    contains "doesnotexist123" msg /\
    res !! "report" = None /\
    trace = [geo_url "doesnotexist123"] /\
    Forall (fun url => is_forecast_request url = false) trace.
Proof.
  apply (@geocoding_miss_is_terminal sample_runtime _ "doesnotexist123"
           (json_response (JDict [("results", JList [])]))).
  - reflexivity.
  - right. exists [("results", JList [])]. split; [reflexivity|]. right. reflexivity.
Defined.



(** What is sent for a city with a space, with non-ASCII text, with a
    fragment sign. *)
Example prepare_url_examples :
  prepare_url (geo_url "new york") =
    "https://geocoding-api.open-meteo.com/v1/search?name=new%20york" /\
  prepare_url (geo_url "東京") =
    "https://geocoding-api.open-meteo.com/v1/search?name=%E6%9D%B1%E4%BA%AC" /\
  prepare_url (geo_url "a#b") =
    "https://geocoding-api.open-meteo.com/v1/search?name=a".
Proof. by vm_compute. Qed.



Lemma forecast_transport_failure_message_witness :
  exists res,
    @get_weather sample_runtime (tokyo_network (Failed Timeout)) "tokyo" =
      ([geo_url "tokyo";
        @weather_url sample_runtime (JFloat "35.68") (JFloat "139.69")], Ret res) /\
    res !! "status" = Some "error" /\
    res !! "error_message" =
      Some ("Open-Meteoへのリクエストに失敗しました: " +:+
            @exn_text sample_runtime (Transport Timeout)) /\
    res !! "report" = None /\
    (forall cause,
       "Open-Meteoへのリクエストに失敗しました: " +:+
       @exn_text sample_runtime (Transport Timeout) <>
       "天気情報の取得に失敗しました: " +:+ cause) /\
    (forall c,
       "Open-Meteoへのリクエストに失敗しました: " +:+
       @exn_text sample_runtime (Transport Timeout) <>
       "申し訳ありません、都市名 '" +:+ c +:+ "' が見つかりませんでした。").
Proof.
  apply (@forecast_transport_failure_message sample_runtime _ "tokyo" _ _ []
           (Transport Timeout) (tokyo_geocoded _)).
  left. exists Timeout. split; reflexivity.
Defined.

Lemma first_candidate_coordinates_witness :
  fst (@get_weather sample_runtime
         (sample_network springfield_geocoding (Failed ConnectionError))
         "springfield") =
    [geo_url "springfield";
     @weather_url sample_runtime (JFloat "39.8") (JFloat "-89.64")].
Proof.
  apply (@first_candidate_coordinates sample_runtime _ "springfield"
           (JFloat "39.8") (JFloat "-89.64")
           [JDict [("latitude", JFloat "37.22"); ("longitude", JFloat "-93.3")]]).
  do 3 eexists. repeat split; reflexivity.
Defined.

Lemma table_code_description_witness :
  exists res,
    @get_weather sample_runtime
      (tokyo_network
         (Responded (json_response (current_weather (JFloat "21.5") (JInt 95)))))
      "tokyo" =
      ([geo_url "tokyo";
        @weather_url sample_runtime (JFloat "35.68") (JFloat "139.69")], Ret res) /\
    res !! "status" = Some "success" /\
    res !! "report" = Some "現在の天気は「雷雨」で、気温は摂氏21.5度です。".
Proof.
  apply (proj2 (proj2 (@table_code_description sample_runtime))
           _ "tokyo" _ _ [] _
           [("temperature", JFloat "21.5"); ("weathercode", JInt 95)] 95 "雷雨"
           (tokyo_geocoded _) (tokyo_forecast_payload _));
    reflexivity.
Defined.

Lemma unknown_code_falls_back_witness :
  exists res,
    @get_weather sample_runtime
      (tokyo_network
         (Responded (json_response (current_weather (JFloat "21.5") (JInt 16)))))
      "tokyo" =
      ([geo_url "tokyo";
        @weather_url sample_runtime (JFloat "35.68") (JFloat "139.69")], Ret res) /\
    res !! "status" = Some "success" /\
    res !! "error_message" = None /\
    res !! "report" = Some "現在の天気は「不明（コード16）」で、気温は摂氏21.5度です。".
Proof.
  apply (@unknown_code_falls_back sample_runtime _ "tokyo" _ _ [] _
           [("temperature", JFloat "21.5"); ("weathercode", JInt 16)] 16
           (tokyo_geocoded _) (tokyo_forecast_payload _));
    reflexivity.
Defined.

Lemma success_report_contents_witness :
  exists res report,
    @get_weather sample_runtime
      (tokyo_network
         (Responded (json_response (current_weather (JFloat "21.5") (JInt 1)))))
      "tokyo" =
      ([geo_url "tokyo";
        @weather_url sample_runtime (JFloat "35.68") (JFloat "139.69")], Ret res) /\
    res !! "status" = Some "success" /\
    res !! "report" = Some report /\
    contains "晴れ" report /\
    contains "21.5" report.
Proof.
  apply (@success_report_contents sample_runtime _ "tokyo" _ _ [] _
           [("temperature", JFloat "21.5"); ("weathercode", JInt 1)]
           (JFloat "21.5") 1
           (tokyo_geocoded _) (tokyo_forecast_payload _));
    reflexivity.
Defined.

Lemma result_is_well_shaped_witness :
  well_shaped (success_result "現在の天気は「晴れ」で、気温は摂氏21.5度です。").
Proof.
  apply (@result_is_well_shaped sample_runtime
           (tokyo_network
              (Responded (json_response (current_weather (JFloat "21.5") (JInt 1)))))
           "tokyo"
           [geo_url "tokyo";
            @weather_url sample_runtime (JFloat "35.68") (JFloat "139.69")]).
  reflexivity.
Defined.

(** The end-to-end scenarios of the specification, evaluated. *)
Example tokyo_scenario :
  @get_weather sample_runtime
    (tokyo_network
       (Responded (json_response (current_weather (JFloat "21.5") (JInt 1)))))
    "tokyo" =
    (["https://geocoding-api.open-meteo.com/v1/search?name=tokyo";
      "https://api.open-meteo.com/v1/forecast?latitude=35.68&longitude=139.69&current_weather=true&timezone=Asia/Tokyo"],
     Ret (success_result "現在の天気は「晴れ」で、気温は摂氏21.5度です。")).
Proof. reflexivity. Qed.

Example unknown_city_scenario :
  @get_weather sample_runtime
    (fun _ => Responded (json_response (JDict [("results", JList [])])))
    "doesnotexist123" =
    (["https://geocoding-api.open-meteo.com/v1/search?name=doesnotexist123"],
     Ret (error_result
            "申し訳ありません、都市名 'doesnotexist123' が見つかりませんでした。")).
Proof. reflexivity. Qed.

Example forecast_timeout_scenario :
  @get_weather sample_runtime (tokyo_network (Failed Timeout)) "tokyo" =
    (["https://geocoding-api.open-meteo.com/v1/search?name=tokyo";
      "https://api.open-meteo.com/v1/forecast?latitude=35.68&longitude=139.69&current_weather=true&timezone=Asia/Tokyo"],
     Ret (error_result "Open-Meteoへのリクエストに失敗しました: Read timed out.")).
Proof. reflexivity. Qed.

(** * Further properties of [get_weather] *)

Section further_properties.
Context {rt : Runtime}.
Implicit Types (net : network) (city url : string).

(** ** Results and the table, once more *)

Lemma Ret_inj {A} (a b : A) : Ret a = Ret b -> a = b.
Proof. by intros [= ->]. Qed.

Lemma error_result_inj (m1 m2 : string) :
  error_result m1 = error_result m2 -> m1 = m2.
Proof.
  intros Heq.
  assert (error_result m1 !! "error_message" = error_result m2 !! "error_message")
    as Hm by (by rewrite Heq).
  destruct (error_result_lookup m1) as (_ & H1 & _).
  destruct (error_result_lookup m2) as (_ & H2 & _).
  rewrite H1, H2 in Hm. by injection Hm.
Qed.

Lemma success_is_not_error (rep msg : string) :
  success_result rep <> error_result msg.
Proof.
  intros Heq.
  assert (success_result rep !! "status" = error_result msg !! "status")
    as Hs by (by rewrite Heq).
  destruct (success_result_lookup rep) as (H1 & _).
  destruct (error_result_lookup msg) as (H2 & _).
  rewrite H1, H2 in Hs. discriminate.
Qed.

Lemma result_domains (msg rep : string) :
  dom (error_result msg) = ({[ "status"; "error_message" ]} : gset string) /\
  dom (success_result rep) = ({[ "status"; "report" ]} : gset string).
Proof.
  unfold error_result, success_result.
  by rewrite !dom_insert_L, !dom_singleton_L.
Qed.

Lemma table_keys_in_range (k : Z) (v : string) :
  code_to_weather !! k = Some v -> 0 <= k <= 99.
Proof.
  intros Hk. apply elem_of_list_to_map_2 in Hk.
  assert (Forall (fun kv : Z * string => 0 <= kv.1 <= 99) code_to_weather_items)
    as Hall by (apply (bool_decide_unpack _); by vm_compute).
  rewrite Forall_forall in Hall. apply (Hall _ Hk).
Qed.

Lemma float_key_of_table_key (k : Z) (v : string) :
  code_to_weather !! k = Some v -> float_key (pretty k +:+ ".0") = Some k.
Proof.
  intros Hk. apply elem_of_list_to_map_2 in Hk.
  assert (Forall (fun kv : Z * string =>
                    float_key (pretty kv.1 +:+ ".0") = Some kv.1)
                 code_to_weather_items)
    as Hall by (apply (bool_decide_unpack _); by vm_compute).
  rewrite Forall_forall in Hall. apply (Hall _ Hk).
Qed.

Local Opaque error_result success_result code_to_weather float_key.

(** ** The two stages, case by case *)

(* The branch that raises: name the response, read the exception off the run. *)
Local Ltac raising r Hok :=
  left; eexists r, _;
  split; [reflexivity|split; [exact Hok|split; [|reflexivity]; reflexivity]].

(** How the geocoding stage (lines 110-118) ends. *)
Lemma geocoding_stage_cases net city :
  (exists t, net (geo_url city) = Failed t /\
     get_weather net city = ([geo_url city], Raise (Transport t))) \/
  (exists r e, net (geo_url city) = Responded r /\ ok r = true /\
     data_exception e = true /\
     get_weather net city = ([geo_url city], Raise e)) \/
  (geocoding_missed net city /\
     get_weather net city =
       ([geo_url city], Ret (error_result (not_found_message city)))) \/
  (exists lat lon rest, geocoded net city lat lon rest).
Proof.
  unfold get_weather, requests_get, response_json.
  destruct (net (geo_url city)) as [t|r] eqn:Hnet; simpl.
  { left. by exists t. }
  right.
  destruct (ok r) eqn:Hok; simpl.
  2:{ right; left. split; [|done]. exists r. by split; [|left]. }
  destruct (body r) as [j|] eqn:Hbody; simpl.
  2:{ raising r Hok. }
  destruct j as [| | | | | |d]; simpl; try (raising r Hok).
  destruct (truthy (default JNull (dict_lookup "results" d))) eqn:Htruthy; simpl.
  2:{ right; left. split; [|done]. exists r. split; [done|]. right. by exists d. }
  destruct (dict_lookup "results" d) as [v|] eqn:Hres; simpl in *; [|done].
  destruct v as [| | | |[|a s]|[|loc rest]|]; simpl in *; try done;
    try (raising r Hok).
  destruct loc as [| | | | | |l]; simpl; try (raising r Hok).
  destruct (dict_lookup "latitude" l) as [lat|] eqn:Hlat; simpl;
    [|raising r Hok].
  destruct (dict_lookup "longitude" l) as [lon|] eqn:Hlon; simpl;
    [|raising r Hok].
  right; right. exists lat, lon, rest, r, d, l. by rewrite Hnet.
Qed.

(** How the forecast stage (lines 126-167) ends. *)
Lemma forecast_stage_cases net url :
  (exists e, forecast_transport_failure net url e /\
     try_except (try_body net url) except_clauses =
       ([url], Ret (error_result (request_failed_message (exn_text e))))) \/
  (exists r, net url = Responded r /\ ok r = true /\ body r = None /\
     try_except (try_body net url) except_clauses =
       ([url], Ret (error_result
                      (request_failed_message (exn_text JSONDecodeError))))) \/
  (exists data e, forecast_payload net url data /\
     uninterpretable data = true /\ is_RequestException e = false /\
     try_except (try_body net url) except_clauses =
       ([url], Ret (error_result (retrieval_failed_message (exn_text e))))) \/
  (exists data rep, forecast_payload net url data /\
     uninterpretable data = false /\
     try_except (try_body net url) except_clauses =
       ([url], Ret (success_result rep))).
Proof.
  destruct (net url) as [t|r] eqn:Hnet.
  { left. exists (Transport t).
    assert (forecast_transport_failure net url (Transport t)) as Hf
      by (left; by exists t).
    split; [done|]. by rewrite (try_body_transport _ _ _ Hf). }
  destruct (ok r) eqn:Hok.
  2:{ left. exists (HTTPError (status_code r)).
      assert (forecast_transport_failure net url (HTTPError (status_code r))) as Hf
        by (right; by exists r).
      split; [done|]. by rewrite (try_body_transport _ _ _ Hf). }
  destruct (body r) as [data|] eqn:Hbody.
  2:{ right; left. exists r. repeat split; try done.
      unfold try_body, requests_get, raise_for_status, response_json.
      rewrite Hnet. simpl. rewrite Hok. simpl. by rewrite Hbody. }
  assert (forecast_payload net url data) as Hp by (by exists r).
  destruct (forecast_stage_payload _ _ _ Hp) as [Hbad Hgood].
  right; right.
  destruct (uninterpretable data) eqn:Hu.
  - left. destruct (Hbad eq_refl) as (e & He & Hst). by exists data, e.
  - right. destruct (Hgood eq_refl) as (rep & Hst). by exists data, rep.
Qed.

(** A described code ends the run in a success. *)
Lemma get_weather_described net city lat lon rest d c desc :
  geocoded net city lat lon rest ->
  forecast_payload net (weather_url lat lon) (JDict d) ->
  default (JDict []) (dict_lookup "current_weather" d) = JDict c ->
  let temp := default JNull (dict_lookup "temperature" c) in
  let code := default JNull (dict_lookup "weathercode" c) in
  code_to_weather_get code (fallback_description code) = ([], Ret desc) ->
  get_weather net city =
    ([geo_url city; weather_url lat lon],
     Ret (success_result (weather_report desc temp))).
Proof.
  intros Hgeo Hfc Hcur temp code Hget.
  apply (get_weather_geocoded _ _ _ _ _ _ Hgeo).
  by rewrite (try_body_payload _ _ d c (Ret desc) Hfc Hcur Hget).
Qed.

Lemma try_body_ext net1 net2 url :
  net1 url = net2 url -> try_body net1 url = try_body net2 url.
Proof. unfold try_body, requests_get. by intros ->. Qed.

Lemma weather_url_is_forecast_request lat lon :
  is_forecast_request (weather_url lat lon) = true.
Proof. reflexivity. Qed.

(** ** Requests *)

(** X1.  A run makes one request or two: the first is the geocoding
    request, the second, when there is one, goes to the forecast service
    with two coordinates; nothing is requested twice and nothing after. *)
Theorem at_most_two_requests net city :
  (fst (get_weather net city) = [geo_url city] \/
   exists lat lon, fst (get_weather net city) = [geo_url city; weather_url lat lon]) /\
  is_forecast_request (geo_url city) = false /\
  (forall lat lon, is_forecast_request (weather_url lat lon) = true).
Proof.
  split; [|split; [reflexivity | intros; reflexivity]].
  destruct (get_weather_cases net city)
    as [(e & ->) | [-> | (lat & lon & res & -> & _)]]; [by left | by left |].
  right. by exists lat, lon.
Qed.

(** X2.  The forecast service is asked exactly when the geocoding answer has a
    success status and an object whose [results] list starts with an object
    that has both coordinates. *)
Theorem forecast_requested_iff_geocoded net city :
  (exists url, fst (get_weather net city) = [geo_url city; url]) <->
  (exists lat lon rest, geocoded net city lat lon rest).
Proof.
  split.
  - intros (url & Hfst).
    destruct (geocoding_stage_cases net city)
      as [(t & _ & Hrun) | [(r & e & _ & _ & _ & Hrun) | [(_ & Hrun) | Hgeo]]];
      [| | |done]; rewrite Hrun in Hfst; discriminate.
  - intros (lat & lon & rest & Hgeo).
    destruct (forecast_stage_returns net (weather_url lat lon)) as (res & Hst & _).
    exists (weather_url lat lon).
    by rewrite (get_weather_geocoded _ _ _ _ _ _ Hgeo Hst).
Qed.

(** X3.  Only the answers to the geocoding request and to forecast requests
    matter: two networks that agree on them give the same run. *)
Theorem only_the_two_services_matter net1 net2 city :
  net1 (geo_url city) = net2 (geo_url city) ->
  (forall url, is_forecast_request url = true -> net1 url = net2 url) ->
  get_weather net1 city = get_weather net2 city.
Proof.
  intros Hgeo Hfc.
  unfold get_weather, requests_get, response_json. rewrite <- Hgeo.
  destruct (net1 (geo_url city)) as [t|r]; simpl; [done|].
  destruct (ok r); simpl; [|done].
  destruct (body r) as [j|]; simpl; [|done].
  destruct j as [| | | | | |d]; simpl; try done.
  destruct (truthy (default JNull (dict_lookup "results" d))); simpl; [|done].
  destruct (dict_lookup "results" d) as [v|]; simpl; [|done].
  destruct v as [| | | |[|a s]|[|loc rest]|]; simpl; try done.
  destruct loc as [| | | | | |l]; simpl; try done.
  destruct (dict_lookup "latitude" l) as [lat|]; simpl; [|done].
  destruct (dict_lookup "longitude" l) as [lon|]; simpl; [|done].
  rewrite (try_body_ext net1 net2 (weather_url lat lon)); [done|].
  apply Hfc, weather_url_is_forecast_request.
Qed.

(** ** Exceptions *)

(** X4.  Once the geocoding stage has its two coordinates no exception leaves
    [get_weather]: whatever the forecast service does, a well-shaped result
    comes back after the two requests. *)
Theorem forecast_stage_never_raises net city lat lon rest :
  geocoded net city lat lon rest ->
  exists res,
    get_weather net city = ([geo_url city; weather_url lat lon], Ret res) /\
    well_shaped res.
Proof.
  intros Hgeo.
  destruct (forecast_stage_returns net (weather_url lat lon))
    as (res & Hst & Hres).
  exists res. split; [by apply (get_weather_geocoded _ _ _ _ _ _ Hgeo)|].
  destruct Hres as [(msg & ->) | (rep & ->)];
    [apply error_result_well_shaped | apply success_result_well_shaped].
Qed.

(** X5.  An exception leaves [get_weather] only out of the geocoding stage:
    the geocoding request is the one request made, and the exception is a
    transport error of that request or one raised while its answer is taken
    apart; it is never an [HTTPError], an [IndexError] or an unhashable-key
    [TypeError]. *)
Theorem exceptions_come_from_geocoding net city trace e :
  get_weather net city = (trace, Raise e) ->
  trace = [geo_url city] /\
  ((exists t, e = Transport t) \/ data_exception e = true) /\
  (forall status, e <> HTTPError status) /\
  e <> IndexError /\
  (forall ty, e <> TypeError ty Unhashable).
Proof.
  intros Hrun.
  assert (trace = [geo_url city] /\
          ((exists t, e = Transport t) \/ data_exception e = true)) as [-> He].
  { destruct (geocoding_stage_cases net city)
      as [(t & _ & Hrun') | [(r & e' & _ & _ & He' & Hrun') | [(_ & Hrun') | Hgeo]]].
    - rewrite Hrun' in Hrun. injection Hrun as <- <-. split; [done|]. left. by exists t.
    - rewrite Hrun' in Hrun. injection Hrun as <- <-. split; [done|]. by right.
    - rewrite Hrun' in Hrun. discriminate.
    - destruct Hgeo as (lat & lon & rest & Hgeo).
      destruct (forecast_stage_returns net (weather_url lat lon)) as (res & Hst & _).
      rewrite (get_weather_geocoded _ _ _ _ _ _ Hgeo Hst) in Hrun. discriminate. }
  split; [done|]. split; [done|].
  repeat split; intros; intros ->; by destruct He as [(t & Ht) | Hd].
Qed.

(** X6.  A transport error leaves [get_weather] exactly when the geocoding
    request itself fails in transport; a forecast request that fails in
    transport never does. *)
Theorem transport_error_escapes_iff net city t :
  (exists trace, get_weather net city = (trace, Raise (Transport t))) <->
  net (geo_url city) = Failed t.
Proof.
  split.
  - intros (trace & Hrun).
    destruct (geocoding_stage_cases net city)
      as [(t' & Hnet & Hrun') | [(r & e' & _ & _ & He' & Hrun') | [(_ & Hrun') | Hgeo]]].
    + rewrite Hrun' in Hrun. by injection Hrun as _ ->.
    + rewrite Hrun' in Hrun. injection Hrun as _ ->. discriminate.
    + rewrite Hrun' in Hrun. discriminate.
    + destruct Hgeo as (lat & lon & rest & Hgeo).
      destruct (forecast_stage_returns net (weather_url lat lon)) as (res & Hst & _).
      rewrite (get_weather_geocoded _ _ _ _ _ _ Hgeo Hst) in Hrun. discriminate.
  - intros Hnet. exists [geo_url city].
    unfold get_weather, requests_get. by rewrite Hnet.
Qed.

(** X7.  A [results] value that is truthy but is not a list (a non-empty object
    or string, a non-zero number, [true]) makes the geocoding stage raise:
    [results[0]] or the [latitude] item of what it gives is not there. *)
Theorem non_list_results_raise net city r d v :
  net (geo_url city) = Responded r ->
  ok r = true ->
  body r = Some (JDict d) ->
  dict_lookup "results" d = Some v ->
  truthy v = true ->
  (forall items, v <> JList items) ->
  exists e,
    get_weather net city = ([geo_url city], Raise e) /\
    data_exception e = true /\
    is_RequestException e = false.
Proof.
  intros Hnet Hok Hbody Hres Htruthy Hlist.
  unfold get_weather, requests_get, response_json.
  rewrite Hnet. simpl. rewrite Hok. simpl. rewrite Hbody. simpl.
  rewrite Hres. simpl. rewrite Htruthy. simpl.
  destruct v as [| | | |[|a s]|items|]; simpl in *; try done;
    try (by eexists).
  by destruct (Hlist items).
Qed.

(** X8.  A first candidate without [latitude] raises [KeyError] for [latitude];
    one with [latitude] and without [longitude] raises it for [longitude].
    Either way no forecast request is made. *)
Theorem missing_coordinate_raises net city r d l rest :
  net (geo_url city) = Responded r ->
  ok r = true ->
  body r = Some (JDict d) ->
  dict_lookup "results" d = Some (JList (JDict l :: rest)) ->
  (dict_lookup "latitude" l = None ->
   get_weather net city = ([geo_url city], Raise (KeyError (JStr "latitude")))) /\
  (is_Some (dict_lookup "latitude" l) ->
   dict_lookup "longitude" l = None ->
   get_weather net city = ([geo_url city], Raise (KeyError (JStr "longitude")))).
Proof.
  intros Hnet Hok Hbody Hres.
  unfold get_weather, requests_get, response_json.
  rewrite Hnet. simpl. rewrite Hok. simpl. rewrite Hbody. simpl.
  rewrite Hres. simpl.
  split.
  - by intros ->.
  - intros [lat ->] ->. done.
Qed.

(** ** Which result *)

(** X9.  The not-found answer is given exactly when the geocoding answer has a
    non-success status, or is an object whose [results] is missing or
    falsy; no failure of the forecast stage is reported that way. *)
Theorem not_found_iff_geocoding_missed net city :
  snd (get_weather net city) = Ret (error_result (not_found_message city)) <->
  geocoding_missed net city.
Proof.
  split.
  - intros Hrun.
    destruct (geocoding_stage_cases net city)
      as [(t & _ & Hrun') | [(r & e & _ & _ & _ & Hrun') | [(Hmiss & _) | Hgeo]]].
    + rewrite Hrun' in Hrun. discriminate.
    + rewrite Hrun' in Hrun. discriminate.
    + done.
    + destruct Hgeo as (lat & lon & rest & Hgeo).
      destruct (forecast_stage_cases net (weather_url lat lon))
        as [(e & _ & Hst) | [(r & _ & _ & _ & Hst) |
            [(data & e & _ & _ & _ & Hst) | (data & rep & _ & _ & Hst)]]];
        rewrite (get_weather_geocoded _ _ _ _ _ _ Hgeo Hst) in Hrun;
        simpl in Hrun; apply Ret_inj in Hrun as Hres.
      * apply error_result_inj in Hres. by apply messages_distinct in Hres.
      * apply error_result_inj in Hres. by apply messages_distinct in Hres.
      * apply error_result_inj in Hres.
        by apply (messages_distinct "" (exn_text e) city) in Hres.
      * by apply success_is_not_error in Hres.
  - intros (r & Hnet & Hmiss).
    by rewrite (get_weather_not_found _ _ r Hnet Hmiss).
Qed.

(** X10.  A success is returned exactly when the geocoding stage has its two
    coordinates and the forecast service answers with a success status and
    a JSON document that can be taken apart. *)
Theorem success_iff_both_services_answer net city :
  (exists rep, snd (get_weather net city) = Ret (success_result rep)) <->
  (exists lat lon rest data,
     geocoded net city lat lon rest /\
     forecast_payload net (weather_url lat lon) data /\
     uninterpretable data = false).
Proof.
  split.
  - intros (rep & Hrun).
    destruct (geocoding_stage_cases net city)
      as [(t & _ & Hrun') | [(r & e & _ & _ & _ & Hrun') | [(_ & Hrun') | Hgeo]]].
    + rewrite Hrun' in Hrun. discriminate.
    + rewrite Hrun' in Hrun. discriminate.
    + rewrite Hrun' in Hrun. simpl in Hrun. apply Ret_inj in Hrun as Hres.
      symmetry in Hres. by apply success_is_not_error in Hres.
    + destruct Hgeo as (lat & lon & rest & Hgeo).
      destruct (forecast_stage_cases net (weather_url lat lon))
        as [(e & _ & Hst) | [(r & _ & _ & _ & Hst) |
            [(data & e & _ & _ & _ & Hst) | (data & rep' & Hp & Hu & Hst)]]];
        [| | |by exists lat, lon, rest, data];
        rewrite (get_weather_geocoded _ _ _ _ _ _ Hgeo Hst) in Hrun;
        simpl in Hrun; apply Ret_inj in Hrun as Hres; symmetry in Hres;
        by apply success_is_not_error in Hres.
  - intros (lat & lon & rest & data & Hgeo & Hp & Hu).
    destruct (forecast_stage_payload _ _ _ Hp) as [_ Hgood].
    destruct (Hgood Hu) as (rep & Hst). exists rep.
    by rewrite (get_weather_geocoded _ _ _ _ _ _ Hgeo Hst).
Qed.

(** X11.  A forecast answer with a success status and a body that is not JSON is
    reported with the request-failure message, not with the catch-all one:
    the decoding error of [requests] is a [RequestException]. *)
Theorem forecast_body_not_json net city lat lon rest r :
  geocoded net city lat lon rest ->
  net (weather_url lat lon) = Responded r ->
  ok r = true ->
  body r = None ->
  get_weather net city =
    ([geo_url city; weather_url lat lon],
     Ret (error_result (request_failed_message (exn_text JSONDecodeError)))).
Proof.
  intros Hgeo Hnet Hok Hbody.
  apply (get_weather_geocoded _ _ _ _ _ _ Hgeo).
  unfold try_body, requests_get, raise_for_status, response_json.
  rewrite Hnet. simpl. rewrite Hok. simpl. by rewrite Hbody.
Qed.

(** X12.  A returned result has two entries: [status] and [report], or [status]
    and [error_message]. *)
Theorem result_has_two_keys net city trace res :
  get_weather net city = (trace, Ret res) ->
  dom res = ({[ "status"; "report" ]} : gset string) \/
  dom res = ({[ "status"; "error_message" ]} : gset string).
Proof.
  intros Hrun.
  destruct (get_weather_cases net city)
    as [(e & He) | [Hnf | (lat & lon & res' & Hres & Hshape)]].
  - rewrite He in Hrun. discriminate.
  - rewrite Hnf in Hrun. injection Hrun as _ <-. right.
    apply (result_domains _ "").
  - rewrite Hres in Hrun. injection Hrun as _ <-.
    destruct Hshape as [(msg & ->) | (rep & ->)].
    + right. apply (result_domains _ "").
    + left. apply (result_domains "").
Qed.

(** X13.  The city enters the result through its coordinates only: two cities
    resolved to the same coordinates get the same result. *)
Theorem result_depends_on_coordinates net city1 city2 lat lon rest1 rest2 :
  geocoded net city1 lat lon rest1 ->
  geocoded net city2 lat lon rest2 ->
  snd (get_weather net city1) = snd (get_weather net city2).
Proof.
  intros Hgeo1 Hgeo2.
  destruct (forecast_stage_returns net (weather_url lat lon)) as (res & Hst & _).
  by rewrite (get_weather_geocoded _ _ _ _ _ _ Hgeo1 Hst),
             (get_weather_geocoded _ _ _ _ _ _ Hgeo2 Hst).
Qed.

(** ** Weather codes that are not plain table keys *)

(** X14.  A code that arrives as the float equal to a table key ([95.0] for [95])
    is described by the entry of that key. *)
Theorem float_code_uses_table net city lat lon rest d c k desc :
  geocoded net city lat lon rest ->
  forecast_payload net (weather_url lat lon) (JDict d) ->
  dict_lookup "current_weather" d = Some (JDict c) ->
  dict_lookup "weathercode" c = Some (JFloat (pretty k +:+ ".0")) ->
  code_to_weather !! k = Some desc ->
  get_weather net city =
    ([geo_url city; weather_url lat lon],
     Ret (success_result
            (weather_report desc (default JNull (dict_lookup "temperature" c))))).
Proof.
  intros Hgeo Hfc Hcur Hcode Hentry.
  apply (get_weather_described _ _ _ _ _ d c desc Hgeo Hfc).
  - by rewrite Hcur.
  - rewrite Hcode. simpl.
    by rewrite (float_key_of_table_key _ _ Hentry); simpl; rewrite Hentry.
Qed.

(** X15.  A code that arrives as a string is never looked up under the number it
    spells: the description is the fallback text around the string. *)
Theorem string_code_falls_back net city lat lon rest d c s :
  geocoded net city lat lon rest ->
  forecast_payload net (weather_url lat lon) (JDict d) ->
  dict_lookup "current_weather" d = Some (JDict c) ->
  dict_lookup "weathercode" c = Some (JStr s) ->
  get_weather net city =
    ([geo_url city; weather_url lat lon],
     Ret (success_result
            (weather_report ("不明（コード" +:+ s +:+ "）")
               (default JNull (dict_lookup "temperature" c))))).
Proof.
  intros Hgeo Hfc Hcur Hcode.
  apply (get_weather_described _ _ _ _ _ d c _ Hgeo Hfc).
  - by rewrite Hcur.
  - by rewrite Hcode.
Qed.

(** X16.  A forecast document without [current_weather] gives the success whose
    report has [None] both for the code and for the temperature. *)
Theorem missing_current_weather_prints_None net city lat lon rest d :
  geocoded net city lat lon rest ->
  forecast_payload net (weather_url lat lon) (JDict d) ->
  dict_lookup "current_weather" d = None ->
  get_weather net city =
    ([geo_url city; weather_url lat lon],
     Ret (success_result
            "現在の天気は「不明（コードNone）」で、気温は摂氏None度です。")).
Proof.
  intros Hgeo Hfc Hcur.
  rewrite (get_weather_described _ _ _ _ _ d [] (fallback_description JNull)
             Hgeo Hfc); [reflexivity | by rewrite Hcur | done].
Qed.

(** X17.  Every key of the table lies between 0 and 99, so an integer code that is
    negative or above 99 always gets the fallback description. *)
Theorem out_of_range_code_falls_back net city lat lon rest d c n :
  geocoded net city lat lon rest ->
  forecast_payload net (weather_url lat lon) (JDict d) ->
  dict_lookup "current_weather" d = Some (JDict c) ->
  dict_lookup "weathercode" c = Some (JInt n) ->
  n < 0 \/ 99 < n ->
  get_weather net city =
    ([geo_url city; weather_url lat lon],
     Ret (success_result
            (weather_report ("不明（コード" +:+ pretty n +:+ "）")
               (default JNull (dict_lookup "temperature" c))))).
Proof.
  intros Hgeo Hfc Hcur Hcode Hrange.
  apply (get_weather_described _ _ _ _ _ d c _ Hgeo Hfc).
  - by rewrite Hcur.
  - rewrite Hcode. simpl.
    destruct (code_to_weather !! n) as [v|] eqn:Hentry; [|done].
    apply table_keys_in_range in Hentry. lia.
Qed.

End further_properties.

(** * The further properties at concrete inputs *)

Transparent error_result success_result code_to_weather float_key.

Lemma forecast_requested_iff_geocoded_witness :
  exists url,
    fst (@get_weather sample_runtime (tokyo_network (Failed Timeout)) "tokyo") =
      [geo_url "tokyo"; url].
Proof.
  apply (proj2 (@forecast_requested_iff_geocoded sample_runtime
                  (tokyo_network (Failed Timeout)) "tokyo")).
  exists (JFloat "35.68"), (JFloat "139.69"), []. apply tokyo_geocoded.
Defined.

Lemma only_the_two_services_matter_witness :
  @get_weather sample_runtime (tokyo_network (Failed Timeout)) "tokyo" =
  @get_weather sample_runtime (detour_network (Failed Timeout)) "tokyo".
Proof.
  apply (@only_the_two_services_matter sample_runtime).
  - reflexivity.
  - intros url Hurl. unfold detour_network.
    destruct (String.eqb_spec url "https://example.com/") as [-> | _];
      [discriminate Hurl | reflexivity].
Defined.

Lemma forecast_stage_never_raises_witness :
  exists res,
    @get_weather sample_runtime (tokyo_network (Failed ConnectionError)) "tokyo" =
      ([geo_url "tokyo";
        @weather_url sample_runtime (JFloat "35.68") (JFloat "139.69")], Ret res) /\
    well_shaped res.
Proof.
  apply (@forecast_stage_never_raises sample_runtime _ "tokyo" _ _ []
           (tokyo_geocoded _)).
Defined.

Lemma exceptions_come_from_geocoding_witness :
  [geo_url "tokyo"] = [geo_url "tokyo"] /\
  ((exists t, KeyError (JStr "latitude") = Transport t) \/
   data_exception (KeyError (JStr "latitude")) = true) /\
  (forall status, KeyError (JStr "latitude") <> HTTPError status) /\
  KeyError (JStr "latitude") <> IndexError /\
  (forall ty, KeyError (JStr "latitude") <> TypeError ty Unhashable).
Proof.
  apply (@exceptions_come_from_geocoding sample_runtime
           (fun _ => Responded (json_response (JDict [("results", JList [JDict []])])))
           "tokyo").
  reflexivity.
Defined.

Lemma transport_error_escapes_iff_witness :
  exists trace,
    @get_weather sample_runtime (fun _ => Failed ConnectionError) "tokyo" =
      (trace, Raise (Transport ConnectionError)).
Proof.
  apply (proj2 (@transport_error_escapes_iff sample_runtime
                  (fun _ => Failed ConnectionError) "tokyo" ConnectionError)).
  reflexivity.
Defined.

Lemma not_found_iff_geocoding_missed_witness :
  snd (@get_weather sample_runtime
         (fun _ => Responded (json_response (JDict [("results", JStr "")])))
         "atlantis") =
    Ret (error_result (not_found_message "atlantis")).
Proof.
  apply (proj2 (@not_found_iff_geocoding_missed sample_runtime _ "atlantis")).
  exists (json_response (JDict [("results", JStr "")])).
  split; [reflexivity|]. right.
  exists [("results", JStr "")]. split; reflexivity.
Defined.

Lemma success_iff_both_services_answer_witness :
  exists rep,
    snd (@get_weather sample_runtime
           (tokyo_network
              (Responded (json_response (current_weather (JFloat "21.5") (JInt 1)))))
           "tokyo") = Ret (success_result rep).
Proof.
  apply (proj2 (@success_iff_both_services_answer sample_runtime _ "tokyo")).
  exists (JFloat "35.68"), (JFloat "139.69"), [],
    (current_weather (JFloat "21.5") (JInt 1)).
  split; [apply tokyo_geocoded|]. split; [apply tokyo_forecast_payload|reflexivity].
Defined.

Lemma forecast_body_not_json_witness :
  @get_weather sample_runtime
    (tokyo_network (Responded {| status_code := 200; body := None |})) "tokyo" =
    ([geo_url "tokyo";
      @weather_url sample_runtime (JFloat "35.68") (JFloat "139.69")],
     Ret (error_result
            (request_failed_message (@exn_text sample_runtime JSONDecodeError)))).
Proof.
  apply (@forecast_body_not_json sample_runtime _ "tokyo" _ _ []
           {| status_code := 200; body := None |} (tokyo_geocoded _));
    reflexivity.
Defined.

Lemma result_has_two_keys_witness :
  dom (error_result (not_found_message "atlantis")) =
    ({[ "status"; "report" ]} : gset string) \/
  dom (error_result (not_found_message "atlantis")) =
    ({[ "status"; "error_message" ]} : gset string).
Proof.
  apply (@result_has_two_keys sample_runtime
           (fun _ => Responded (json_response (JDict []))) "atlantis"
           [geo_url "atlantis"]).
  reflexivity.
Defined.

Lemma result_depends_on_coordinates_witness :
  snd (@get_weather sample_runtime (tokyo_network (Failed Timeout)) "tokyo") =
  snd (@get_weather sample_runtime (tokyo_network (Failed Timeout)) "edo").
Proof.
  apply (@result_depends_on_coordinates sample_runtime _ "tokyo" "edo"
           (JFloat "35.68") (JFloat "139.69") [] [] (tokyo_geocoded _)).
  do 3 eexists. repeat split; reflexivity.
Defined.

Lemma float_code_uses_table_witness :
  @get_weather sample_runtime
    (tokyo_network
       (Responded (json_response (current_weather (JFloat "21.5") (JFloat "95.0")))))
    "tokyo" =
    ([geo_url "tokyo";
      @weather_url sample_runtime (JFloat "35.68") (JFloat "139.69")],
     Ret (success_result "現在の天気は「雷雨」で、気温は摂氏21.5度です。")).
Proof.
  apply (@float_code_uses_table sample_runtime _ "tokyo" _ _ [] _
           [("temperature", JFloat "21.5"); ("weathercode", JFloat "95.0")] 95 "雷雨"
           (tokyo_geocoded _) (tokyo_forecast_payload _));
    reflexivity.
Defined.

Lemma string_code_falls_back_witness :
  @get_weather sample_runtime
    (tokyo_network
       (Responded (json_response (current_weather (JFloat "21.5") (JStr "95")))))
    "tokyo" =
    ([geo_url "tokyo";
      @weather_url sample_runtime (JFloat "35.68") (JFloat "139.69")],
     Ret (success_result "現在の天気は「不明（コード95）」で、気温は摂氏21.5度です。")).
Proof.
  apply (@string_code_falls_back sample_runtime _ "tokyo" _ _ [] _
           [("temperature", JFloat "21.5"); ("weathercode", JStr "95")] "95"
           (tokyo_geocoded _) (tokyo_forecast_payload _));
    reflexivity.
Defined.

Lemma out_of_range_code_falls_back_witness :
  @get_weather sample_runtime
    (tokyo_network
       (Responded (json_response (current_weather (JFloat "21.5") (JInt 100)))))
    "tokyo" =
    ([geo_url "tokyo";
      @weather_url sample_runtime (JFloat "35.68") (JFloat "139.69")],
     Ret (success_result "現在の天気は「不明（コード100）」で、気温は摂氏21.5度です。")).
Proof.
  apply (@out_of_range_code_falls_back sample_runtime _ "tokyo" _ _ [] _
           [("temperature", JFloat "21.5"); ("weathercode", JInt 100)] 100
           (tokyo_geocoded _) (tokyo_forecast_payload _));
    [reflexivity | reflexivity | right; lia].
Defined.

Lemma non_list_results_raise_witness :
  exists e,
    @get_weather sample_runtime
      (fun _ => Responded (json_response (JDict [("results", JInt 3)]))) "tokyo" =
      ([geo_url "tokyo"], Raise e) /\
    data_exception e = true /\
    is_RequestException e = false.
Proof.
  apply (@non_list_results_raise sample_runtime _ "tokyo"
           (json_response (JDict [("results", JInt 3)]))
           [("results", JInt 3)] (JInt 3));
    try reflexivity.
  intros items Heq. discriminate Heq.
Defined.

Lemma missing_coordinate_raises_witness :
  @get_weather sample_runtime
    (fun _ => Responded (json_response
       (JDict [("results", JList [JDict [("latitude", JFloat "35.68")]])])))
    "tokyo" =
    ([geo_url "tokyo"], Raise (KeyError (JStr "longitude"))).
Proof.
  apply (proj2 (@missing_coordinate_raises sample_runtime _ "tokyo"
                  (json_response
                     (JDict [("results", JList [JDict [("latitude", JFloat "35.68")]])]))
                  [("results", JList [JDict [("latitude", JFloat "35.68")]])]
                  [("latitude", JFloat "35.68")] []
                  eq_refl eq_refl eq_refl eq_refl)).
  - by exists (JFloat "35.68").
  - reflexivity.
Defined.

Lemma missing_current_weather_prints_None_witness :
  @get_weather sample_runtime
    (tokyo_network (Responded (json_response (JDict [("latitude", JFloat "35.7")]))))
    "tokyo" =
    ([geo_url "tokyo";
      @weather_url sample_runtime (JFloat "35.68") (JFloat "139.69")],
     Ret (success_result
            "現在の天気は「不明（コードNone）」で、気温は摂氏None度です。")).
Proof.
  apply (@missing_current_weather_prints_None sample_runtime _ "tokyo" _ _ [] _
           (tokyo_geocoded _) (tokyo_forecast_payload _)).
  reflexivity.
Defined.
